(** * Chat-with-CSV: the query dispatcher and the page script of [app.py]

    [app.py] is a Streamlit page.  At start-up it reads an API key from the
    environment and stops when the key is missing; it then lets the user
    upload a CSV file, type a question, and forwards table and question to
    an external engine through [chat_with_csv], which normalises the
    engine's reply by its run-time type.

    The development embeds the script as a function into a small monad of
    effects (the calls that leave the program, in order) and results (a
    value, an exception, or a halted script). *)

From Stdlib Require Import Floats.SpecFloat.
From stdpp Require Import base strings list gmap.

Set Default Proof Using "Type".
Set Warnings "-register-all".

Local Open Scope string_scope.
Local Open Scope list_scope.

(** ** Python values *)

(** A table ([pandas.DataFrame]): named columns and positionally aligned
    rows.  The cell type is a parameter so that a table can itself be a
    Python value below. *)
Record frame (V : Type) : Type := Frame {
  columns : list string;
  rows : list (list V)
}.
Arguments Frame {V} _ _.
Arguments columns {V} _.
Arguments rows {V} _.

(** The Python values an engine reply is built from.  A [dict] keeps its
    insertion order, which decides the order of columns, so it is an
    association list; a float is its IEEE 754 value (a finite one is
    [m * 2^e]); [VOther] stands for an instance of any class that is no
    subclass of [DataFrame], [list] or [dict] (a tuple, a date, ...). *)
Inductive pyval : Type :=
  | VNone
  | VBool (b : bool)
  | VInt (n : Z)
  | VFloat (x : spec_float)
  | VStr (s : string)
  | VList (items : list pyval)
  | VDict (entries : list (string * pyval))
  | VDataFrame (t : frame pyval)
  | VOther (cls : string) (repr : string).

Abbreviation DataFrame := (frame pyval).
Abbreviation dict := (list (string * pyval)).

Definition isinstance_DataFrame (v : pyval) : bool :=
  match v with VDataFrame _ => true | _ => false end.

Definition isinstance_list (v : pyval) : bool :=
  match v with VList _ => true | _ => false end.

Definition isinstance_dict (v : pyval) : bool :=
  match v with VDict _ => true | _ => false end.

(** Truth value of [os.getenv]'s result, a [str] or [None]: [None] and the
    empty string are false. *)
Definition truthy (v : option string) : bool :=
  match v with
  | None => false
  | Some s => negb (String.eqb s EmptyString)
  end.

(** ** Exceptions, external calls and effects *)

(** An instance of Python's [Exception] (the class the handler in
    [chat_with_csv] names): its class and its message. *)
Record Exception : Type := Exc {
  exc_class : string;
  exc_message : string
}.

Definition ValueError (msg : string) : Exception := Exc "ValueError" msg.

(** What a call into a library gives back. *)
Inductive result (A : Type) : Type :=
  | Ok (a : A)
  | Err (e : Exception).
Arguments Ok {A} _.
Arguments Err {A} _.

(** The calls that leave the program, as the script makes them. *)
Inductive event : Type :=
  | st_error (body : string)
  | st_stop
  | st_set_page_config (layout : string)
  | st_title (body : string)
  | st_file_uploader (label : string) (type : list string)
  | st_columns (spec : list Z)
  | st_info (body : string)
  | st_dataframe (data : DataFrame) (use_container_width : bool)
  | st_text_area (label : string)
  | st_button (label : string)
  | st_success (body : pyval)
  | print (line : string)
  | call_load_dotenv
  | call_read_csv (file : string)
  | call_OpenAi (api_token : option string)
  | call_SmartDataframe (df : DataFrame)
  | call_chat (prompt : string)
  | call_DataFrame (data : pyval)
  | in_column (c : nat) (e : event).

(** How a piece of the script ends: with a value, with an exception on its
    way up, or halted by [st.stop()]. *)
Inductive outcome (A : Type) : Type :=
  | Return (a : A)
  | Raise (e : Exception)
  | Halted.
Arguments Return {A} _.
Arguments Raise {A} _.
Arguments Halted {A}.

Definition io (A : Type) : Type := list event * outcome A.

Definition ret {A} (a : A) : io A := ([], Return a).

Definition bind {A B} (m : io A) (k : A -> io B) : io B :=
  match m with
  | (t, Return a) => let (t', o) := k a in (t ++ t', o)
  | (t, Raise e) => (t, Raise e)
  | (t, Halted) => (t, Halted)
  end.

Notation "'let*' x ':=' m 'in' k" := (bind m (fun x => k))
  (at level 10, x name, m at level 100, k at level 200, only parsing).

(** One effect with no result. *)
Definition emit (e : event) : io unit := ([e], Return tt).

(** A call into a library: logged, and its exception raised here. *)
Definition call {A} (e : event) (r : result A) : io A :=
  ([e], match r with Ok a => Return a | Err x => Raise x end).

(** [try: body / except Exception as e: handler e]. *)
Definition try_except {A} (body : io A) (handler : Exception -> io A) : io A :=
  match body with
  | (t, Raise e) => let (t', o) := handler e in (t ++ t', o)
  | other => other
  end.

(** [with col: body]: the effects of [body] happen inside column [c]. *)
Definition within {A} (c : nat) (body : io A) : io A :=
  (in_column c <$> body.1, body.2).

(** ** The table constructor of pandas *)

Definition keys (d : dict) : list string := d.*1.

Fixpoint dict_get (d : dict) (k : string) : option pyval :=
  match d with
  | [] => None
  | (k', v) :: d' => if String.eqb k' k then Some v else dict_get d' k
  end.

(** The float [nan], which pandas puts where a record has no value. *)
Definition NaN : pyval := VFloat S754_nan.

(** The labels of [l] in the order of their first appearance. *)
Fixpoint fast_unique (seen : list string) (l : list string) : list string :=
  match l with
  | [] => []
  | k :: l' =>
      if bool_decide (k ∈ seen) then fast_unique seen l'
      else k :: fast_unique (k :: seen) l'
  end.

Definition as_record (v : pyval) : option dict :=
  match v with VDict d => Some d | _ => None end.

(** All items of a list as records, when every item is a [dict]. *)
Definition as_records (items : list pyval) : option (list dict) :=
  mapM as_record items.

Definition record_columns (records : list dict) : list string :=
  fast_unique [] (concat (keys <$> records)).


(** The values the records hold under one key, in the order of the
    records. *)
Definition record_column (records : list dict) (k : string) : list pyval :=
  (fun r => default NaN (dict_get r k)) <$> records.

(** A value pandas treats as a scalar, not as a column of values. *)
Definition is_scalar (v : pyval) : bool :=
  match v with
  | VNone | VBool _ | VInt _ | VFloat _ | VStr _ => true
  | _ => false
  end.

(** A cell pandas stores as it is in any column of such cells. *)
Definition plain_cell (v : pyval) : bool :=
  match v with
  | VInt _ | VStr _ => true
  | _ => false
  end.

(** A cell as a column stores it: as it is in a column of plain cells, and
    converted to the type pandas gives the column otherwise ([convert] is
    that conversion: it turns the [1] of a column [[1, None]] into [1.0]
    and its [None] into [nan]). *)
Definition stored_cell (convert : list pyval -> pyval -> pyval)
    (column : list pyval) (v : pyval) : pyval :=
  if forallb plain_cell column then v else convert column v.

Definition frame_of_records (convert : list pyval -> pyval -> pyval)
    (records : list dict) : DataFrame :=
  let cols := record_columns records in
  Frame cols
    ((fun r =>
        (fun k => stored_cell convert (record_column records k)
                              (default NaN (dict_get r k))) <$> cols)
       <$> records).

(** Records that are proper dicts (no key twice), all with the key set of
    the first. *)
Definition uniform_records (records : list dict) : bool :=
  match records with
  | [] => true
  | r0 :: _ =>
      forallb (fun r => bool_decide (NoDup (keys r))
                          && bool_decide (keys r ≡ₚ keys r0)) records
  end.


Definition all_scalars_message : string :=
  "If using all scalar values, you must pass an index".

(** What the model leaves to pandas: the constructor on every shape not
    spelled out below, and the conversion of the cells of a column to the
    column's type. *)
Record pandas_lib : Type := PandasLib {
  DataFrame_other : pyval -> result DataFrame;
  convert_cell : list pyval -> pyval -> pyval
}.

Section Pandas.

Variable pd : pandas_lib.

(** Modelled from the spec: [pd.DataFrame] is the constructor of the
    external pandas library and absent from src/.  A sequence of uniform
    records becomes the table whose columns are the keys in the order of
    their first appearance and whose rows are the records in order, each
    cell being the record's value under the column's key as the column
    stores it.  On a single dict the spec is silent and the model follows
    pandas itself: the empty dict becomes the empty table, and a non-empty
    dict of scalars only is refused with a [ValueError].  Every other shape
    (records that differ in their keys, nested lists, dicts of columns,
    ...) is left to [DataFrame_other]. *)
Definition pd_DataFrame (data : pyval) : result DataFrame :=
  match data with
  | VList items =>
      match as_records items with
      | Some records =>
          if uniform_records records
          then Ok (frame_of_records (convert_cell pd) records)
          else DataFrame_other pd data
      | None => DataFrame_other pd data
      end
  | VDict [] => Ok (Frame [] [])
  | VDict entries =>
      if forallb is_scalar entries.*2
      then Err (ValueError all_scalars_message)
      else DataFrame_other pd data
  | _ => DataFrame_other pd data
  end.

End Pandas.

(** ** The query dispatcher *)

Section Dispatcher.

(** The engine's handles, opaque to the program. *)
Context {LLM SmartDf : Type}.

(** The external engine: the two constructors and the query itself. *)
Variable OpenAi : option string -> result LLM.
Variable SmartDataframe : DataFrame -> LLM -> result SmartDf.
Variable chat : SmartDf -> string -> result pyval.
Variable pd : pandas_lib.

(** The module-level variable the function reads. *)
Variable openai_api_key : option string.

(** The [try] block of the [elif] branch.  [Some v] is a [return v] made
    inside the block; [None] is control leaving the block by its end. *)
Definition convert_block (result : pyval) : io (option pyval) :=
  try_except
    (let* result_df := call (call_DataFrame result)
                            (pd_DataFrame pd result) in
     ret (Some (VDataFrame result_df)))
    (fun e =>
     let* _ := emit (print "Could Not Convert Result To DataFrame") in
     ret None).

Definition chat_with_csv (df : DataFrame) (prompt : string) : io pyval :=
  let* llm := call (call_OpenAi openai_api_key) (OpenAi openai_api_key) in
  let* pandas_ai := call (call_SmartDataframe df) (SmartDataframe df llm) in
  let* result := call (call_chat prompt) (chat pandas_ai prompt) in
  if isinstance_DataFrame result then
    ret result
  else if isinstance_list result || isinstance_dict result then
    let* returned := convert_block result in
    match returned with
    | Some result_df => ret result_df
    | None => ret result
    end
  else
    ret result.

End Dispatcher.

(** ** The page script *)

(** What the outside world supplies to one run of the script: the process
    environment, and what the three input widgets give back. *)
Record session : Type := Session {
  os_environ : gmap string string;
  file_uploader_value : option string;
  text_area_value : option string;
  button_value : bool
}.

Definition key_missing_message : string :=
  "⚠️ OpenAI API key missing. Please check your .env file.".

Section App.

Context {LLM SmartDf : Type}.
Variable OpenAi : option string -> result LLM.
Variable SmartDataframe : DataFrame -> LLM -> result SmartDf.
Variable chat : SmartDf -> string -> result pyval.
Variable pd : pandas_lib.

(** What [load_dotenv()] makes of the process environment. *)
Variable load_dotenv : gmap string string -> gmap string string.
Variable pd_read_csv : string -> result DataFrame.

Definition os_getenv (environ : gmap string string) (name : string)
  : option string := environ !! name.

(** The body of [with col2:]. *)
Definition col2_block (openai_api_key : option string) (data : DataFrame)
    (s : session) : io unit :=
  let* _ := emit (st_info "Chat Below With Your Dataset") in
  let* _ := emit (st_text_area "Enter Your Query...") in
  match text_area_value s with
  | Some input_text =>
      let* _ := emit (st_button "Chat With CSV") in
      if button_value s then
        let* _ := emit (st_info ("🔎 Your Query: " +:+ input_text)) in
        let* result :=
          chat_with_csv OpenAi SmartDataframe chat pd
                        openai_api_key data input_text in
        let* _ :=
          match result with
          | VDataFrame t => emit (st_dataframe t true)
          | _ => ret tt
          end in
        emit (st_success result)
      else ret tt
  | None => ret tt
  end.

(** The body of [with col1:], which yields the parsed table. *)
Definition col1_block (input_csv : string) : io DataFrame :=
  let* _ := emit (st_info "✅ CSV File Uploaded Successfully") in
  let* data := call (call_read_csv input_csv) (pd_read_csv input_csv) in
  let* _ := emit (st_dataframe data true) in
  ret data.

(** The whole script, top to bottom. *)
Definition app (s : session) : io unit :=
  let* _ := emit call_load_dotenv in
  let environ := load_dotenv (os_environ s) in
  let openai_api_key := os_getenv environ "OPENAI_API_KEY" in
  let* _ :=
    if negb (truthy openai_api_key) then
      let* _ := emit (st_error key_missing_message) in
      ([st_stop], Halted)
    else ret tt in
  let* _ := emit (st_set_page_config "wide") in
  let* _ := emit (st_title "📊 Chat With CSV Using LLm Model") in
  let* _ := emit (st_file_uploader "Upload Your CSV File" ["csv"]) in
  match file_uploader_value s with
  | Some input_csv =>
      let* _ := emit (st_columns [1; 1]%Z) in
      let* data := within 1 (col1_block input_csv) in
      within 2 (col2_block openai_api_key data s)
  | None => ret tt
  end.

End App.

(** ** Names for the statements *)

(** The three calls every run of the dispatcher starts with. *)
Definition engine_calls (key : option string) (df : DataFrame)
    (prompt : string) : list event :=
  [call_OpenAi key; call_SmartDataframe df; call_chat prompt].

(** Whether an effect belongs to what lies past the credential check: the
    upload and query widgets, the making of a table, the engine. *)
Fixpoint past_startup (e : event) : bool :=
  match e with
  | st_file_uploader _ _ | st_text_area _ | st_button _ | st_dataframe _ _
  | call_read_csv _ | call_DataFrame _
  | call_OpenAi _ | call_SmartDataframe _ | call_chat _ => true
  | in_column _ e' => past_startup e'
  | _ => false
  end.

(** What the page shows before the dispatcher is called. *)
Definition page_before_query (input_csv : string) (data : DataFrame)
    (input_text : string) : list event :=
  [call_load_dotenv; st_set_page_config "wide";
   st_title "📊 Chat With CSV Using LLm Model";
   st_file_uploader "Upload Your CSV File" ["csv"];
   st_columns [1; 1]%Z;
   in_column 1 (st_info "✅ CSV File Uploaded Successfully");
   in_column 1 (call_read_csv input_csv);
   in_column 1 (st_dataframe data true);
   in_column 2 (st_info "Chat Below With Your Dataset");
   in_column 2 (st_text_area "Enter Your Query...");
   in_column 2 (st_button "Chat With CSV");
   in_column 2 (st_info ("🔎 Your Query: " +:+ input_text))].

(** Whether an effect is a Streamlit call, at the top of the page or
    inside a column. *)
Fixpoint is_widget (e : event) : bool :=
  match e with
  | st_error _ | st_stop | st_set_page_config _ | st_title _
  | st_file_uploader _ _ | st_columns _ | st_info _ | st_dataframe _ _
  | st_text_area _ | st_button _ | st_success _ => true
  | in_column _ e' => is_widget e'
  | _ => false
  end.

(** Whether an effect is a query sent to the engine. *)
Fixpoint is_engine_query (e : event) : bool :=
  match e with
  | call_chat _ => true
  | in_column _ e' => is_engine_query e'
  | _ => false
  end.

(** The API tokens an effect hands to the engine. *)
Fixpoint openai_tokens (e : event) : list (option string) :=
  match e with
  | call_OpenAi api_token => [api_token]
  | in_column _ e' => openai_tokens e'
  | _ => []
  end.

(** What the page shows down to the upload widget. *)
Definition page_header : list event :=
  [call_load_dotenv; st_set_page_config "wide";
   st_title "📊 Chat With CSV Using LLm Model";
   st_file_uploader "Upload Your CSV File" ["csv"]].

(** What the page shows from the columns down to the text area, once a
    file has been parsed. *)
Definition page_loaded (input_csv : string) (data : DataFrame) : list event :=
  [st_columns [1; 1]%Z;
   in_column 1 (st_info "✅ CSV File Uploaded Successfully");
   in_column 1 (call_read_csv input_csv);
   in_column 1 (st_dataframe data true);
   in_column 2 (st_info "Chat Below With Your Dataset");
   in_column 2 (st_text_area "Enter Your Query...")].

(** The widgets that show a result. *)
Definition result_widgets (result : pyval) : list event :=
  match result with
  | VDataFrame table => [st_dataframe table true; st_success result]
  | _ => [st_success result]
  end.

Section Runs.

Context {LLM SmartDf : Type}.
Variable OpenAi : option string -> result LLM.
Variable SmartDataframe : DataFrame -> LLM -> result SmartDf.
Variable chat : SmartDf -> string -> result pyval.
Variable pd : pandas_lib.
Variable openai_api_key : option string.
Variable df : DataFrame.
Variable prompt : string.

(** The six ways through [chat_with_csv], each with the answers of the
    library calls that select it. *)
Inductive dispatch_run : io pyval -> Prop :=
  | run_llm_error e :
      OpenAi openai_api_key = Err e ->
      dispatch_run ([call_OpenAi openai_api_key], Raise e)
  | run_session_error llm e :
      OpenAi openai_api_key = Ok llm ->
      SmartDataframe df llm = Err e ->
      dispatch_run
        ([call_OpenAi openai_api_key; call_SmartDataframe df], Raise e)
  | run_query_error llm pandas_ai e :
      OpenAi openai_api_key = Ok llm ->
      SmartDataframe df llm = Ok pandas_ai ->
      chat pandas_ai prompt = Err e ->
      dispatch_run (engine_calls openai_api_key df prompt, Raise e)
  | run_passed llm pandas_ai reply :
      OpenAi openai_api_key = Ok llm ->
      SmartDataframe df llm = Ok pandas_ai ->
      chat pandas_ai prompt = Ok reply ->
      isinstance_list reply || isinstance_dict reply = false ->
      dispatch_run (engine_calls openai_api_key df prompt, Return reply)
  | run_converted llm pandas_ai reply t :
      OpenAi openai_api_key = Ok llm ->
      SmartDataframe df llm = Ok pandas_ai ->
      chat pandas_ai prompt = Ok reply ->
      isinstance_list reply || isinstance_dict reply = true ->
      pd_DataFrame pd reply = Ok t ->
      dispatch_run
        (engine_calls openai_api_key df prompt ++ [call_DataFrame reply],
         Return (VDataFrame t))
  | run_refused llm pandas_ai reply e :
      OpenAi openai_api_key = Ok llm ->
      SmartDataframe df llm = Ok pandas_ai ->
      chat pandas_ai prompt = Ok reply ->
      isinstance_list reply || isinstance_dict reply = true ->
      pd_DataFrame pd reply = Err e ->
      dispatch_run
        (engine_calls openai_api_key df prompt
           ++ [call_DataFrame reply;
               print "Could Not Convert Result To DataFrame"],
         Return reply).

End Runs.

Section PageRuns.

Context {LLM SmartDf : Type}.
Variable OpenAi : option string -> result LLM.
Variable SmartDataframe : DataFrame -> LLM -> result SmartDf.
Variable chat : SmartDf -> string -> result pyval.
Variable pd : pandas_lib.
Variable load_dotenv : gmap string string -> gmap string string.
Variable pd_read_csv : string -> result DataFrame.
Variable s : session.

(** The seven ways through the script, each with the inputs and the
    answers of the library calls that select it. *)
Inductive page_run : io unit -> Prop :=
  | page_halted :
      truthy (os_getenv (load_dotenv (os_environ s)) "OPENAI_API_KEY")
        = false ->
      page_run
        ([call_load_dotenv; st_error key_missing_message; st_stop], Halted)
  | page_idle :
      truthy (os_getenv (load_dotenv (os_environ s)) "OPENAI_API_KEY")
        = true ->
      file_uploader_value s = None ->
      page_run (page_header, Return tt)
  | page_unparsed input_csv e :
      truthy (os_getenv (load_dotenv (os_environ s)) "OPENAI_API_KEY")
        = true ->
      file_uploader_value s = Some input_csv ->
      pd_read_csv input_csv = Err e ->
      page_run
        (page_header
           ++ [st_columns [1; 1]%Z;
               in_column 1 (st_info "✅ CSV File Uploaded Successfully");
               in_column 1 (call_read_csv input_csv)],
         Raise e)
  | page_untyped input_csv data :
      truthy (os_getenv (load_dotenv (os_environ s)) "OPENAI_API_KEY")
        = true ->
      file_uploader_value s = Some input_csv ->
      pd_read_csv input_csv = Ok data ->
      text_area_value s = None ->
      page_run (page_header ++ page_loaded input_csv data, Return tt)
  | page_waiting input_csv data input_text :
      truthy (os_getenv (load_dotenv (os_environ s)) "OPENAI_API_KEY")
        = true ->
      file_uploader_value s = Some input_csv ->
      pd_read_csv input_csv = Ok data ->
      text_area_value s = Some input_text ->
      button_value s = false ->
      page_run
        (page_header ++ page_loaded input_csv data
           ++ [in_column 2 (st_button "Chat With CSV")],
         Return tt)
  | page_answered input_csv data input_text t result :
      truthy (os_getenv (load_dotenv (os_environ s)) "OPENAI_API_KEY")
        = true ->
      file_uploader_value s = Some input_csv ->
      pd_read_csv input_csv = Ok data ->
      text_area_value s = Some input_text ->
      button_value s = true ->
      chat_with_csv OpenAi SmartDataframe chat pd
        (os_getenv (load_dotenv (os_environ s)) "OPENAI_API_KEY")
        data input_text = (t, Return result) ->
      page_run
        (page_before_query input_csv data input_text
           ++ (in_column 2 <$> t)
           ++ (in_column 2 <$> result_widgets result),
         Return tt)
  | page_failed input_csv data input_text t e :
      truthy (os_getenv (load_dotenv (os_environ s)) "OPENAI_API_KEY")
        = true ->
      file_uploader_value s = Some input_csv ->
      pd_read_csv input_csv = Ok data ->
      text_area_value s = Some input_text ->
      button_value s = true ->
      chat_with_csv OpenAi SmartDataframe chat pd
        (os_getenv (load_dotenv (os_environ s)) "OPENAI_API_KEY")
        data input_text = (t, Raise e) ->
      page_run
        (page_before_query input_csv data input_text ++ (in_column 2 <$> t),
         Raise e).

End PageRuns.

(** ** A small world to run the script in *)

(** An engine that always answers [reply]: the handle of the model is the
    key it was given, the handle of the session is the table. *)
Definition demo_OpenAi (api_token : option string) : result (option string) :=
  Ok api_token.

Definition demo_SmartDataframe (df : DataFrame) (llm : option string)
  : result DataFrame := Ok df.

Definition demo_chat (reply : pyval) (pandas_ai : DataFrame) (prompt : string)
  : result pyval := Ok reply.

(** An engine whose query fails. *)
Definition demo_chat_fails (e : Exception) (pandas_ai : DataFrame)
    (prompt : string) : result pyval := Err e.

(** A pandas that refuses every shape left open and converts no cell. *)
Definition demo_pd : pandas_lib :=
  PandasLib (fun data => Err (Exc "TypeError" "unsupported data"))
            (fun column v => v).

Definition demo_table : DataFrame :=
  Frame ["city"; "sales"] [[VStr "Pune"; VInt 10]; [VStr "Agra"; VInt 7]].

Definition demo_read_csv (file : string) : result DataFrame := Ok demo_table.

(** A [load_dotenv()] that finds no [.env] file. *)
Definition demo_load_dotenv (environ : gmap string string)
  : gmap string string := environ.

(** The records of the spec's example, [[{"a":1,"b":2},{"a":3,"b":4}]]. *)
Definition demo_records : list dict :=
  [[("a", VInt 1); ("b", VInt 2)]; [("a", VInt 3); ("b", VInt 4)]].

Definition demo_session (environ : gmap string string) : session :=
  Session environ (Some "city,sales") (Some "total sales?") true.

(** The floats [3.5] and [0.25], and the record [{"avg": 3.5, "n": 2}]. *)
Definition float_3_5 : spec_float := S754_finite false 7 (-1).

Definition float_0_25 : spec_float := S754_finite false 1 (-2).


(** The dispatcher and the page in that world. *)
Definition demo_dispatch (reply : pyval) : io pyval :=
  chat_with_csv demo_OpenAi demo_SmartDataframe (demo_chat reply)
                demo_pd (Some "sk-demo") demo_table "total sales?".

Definition demo_page (reply : pyval) (environ : gmap string string) : io unit :=
  app demo_OpenAi demo_SmartDataframe (demo_chat reply) demo_pd
      demo_load_dotenv demo_read_csv (demo_session environ).

(** Libraries that fail: a model that cannot be set up, a session that
    cannot be opened, a file that cannot be parsed. *)
Definition demo_OpenAi_fails (api_token : option string)
  : result (option string) := Err (Exc "AuthenticationError" "invalid key").

Definition demo_SmartDataframe_fails (df : DataFrame) (llm : option string)
  : result DataFrame := Err (Exc "ValueError" "invalid configuration").

Definition demo_read_csv_fails (file : string) : result DataFrame :=
  Err (Exc "ParserError" "Error tokenizing data").

(** A run in which the user has typed [input_text] and [pressed] tells
    whether the button was clicked. *)
Definition demo_session_typed (input_text : string) (pressed : bool)
  : session :=
  Session {[ "OPENAI_API_KEY" := "sk-demo" ]} (Some "city,sales")
          (Some input_text) pressed.

(** A run with a key and nothing uploaded yet. *)
Definition demo_session_idle : session :=
  Session {[ "OPENAI_API_KEY" := "sk-demo" ]} None None false.

(** ** Facts about the table constructor *)














(** ** Facts about the dispatcher *)

Section DispatcherFacts.

Context {LLM SmartDf : Type}.
Variable OpenAi : option string -> result LLM.
Variable SmartDataframe : DataFrame -> LLM -> result SmartDf.
Variable chat : SmartDf -> string -> result pyval.
Variable pd : pandas_lib.
Variable openai_api_key : option string.

(** Once the engine has replied, the dispatcher is its type cascade. *)
Lemma chat_with_csv_replied df prompt llm pandas_ai result :
  OpenAi openai_api_key = Ok llm ->
  SmartDataframe df llm = Ok pandas_ai ->
  chat pandas_ai prompt = Ok result ->
  chat_with_csv OpenAi SmartDataframe chat pd openai_api_key
    df prompt =
    bind (engine_calls openai_api_key df prompt, Return result)
      (fun result =>
         if isinstance_DataFrame result then ret result
         else if isinstance_list result || isinstance_dict result then
           let* returned := convert_block pd result in
           match returned with
           | Some result_df => ret result_df
           | None => ret result
           end
         else ret result).
Proof.
  intros Hllm Hsdf Hchat.
  unfold chat_with_csv, call.
  rewrite Hllm. cbn [bind]. rewrite Hsdf. cbn [bind]. rewrite Hchat.
  cbn [bind List.app engine_calls].
  destruct (if isinstance_DataFrame result then _ else _) as [t o].
  by destruct o.
Qed.

(** The [try] block when construction fails: the handler prints its
    fixed line and control leaves the block without a [return]. *)
Lemma convert_block_failure result e :
  pd_DataFrame pd result = Err e ->
  convert_block pd result =
    ([call_DataFrame result; print "Could Not Convert Result To DataFrame"],
     Return None).
Proof.
  unfold convert_block, call. intros ->. reflexivity.
Qed.

(** The [try] block when construction succeeds: [return result_df]. *)
Lemma convert_block_success result t :
  pd_DataFrame pd result = Ok t ->
  convert_block pd result =
    ([call_DataFrame result], Return (Some (VDataFrame t))).
Proof.
  unfold convert_block, call. intros ->. reflexivity.
Qed.

(** What the dispatcher does with a list or dict that pandas refuses. *)
Lemma chat_with_csv_refused df prompt llm pandas_ai result e :
  OpenAi openai_api_key = Ok llm ->
  SmartDataframe df llm = Ok pandas_ai ->
  chat pandas_ai prompt = Ok result ->
  isinstance_list result || isinstance_dict result = true ->
  pd_DataFrame pd result = Err e ->
  chat_with_csv OpenAi SmartDataframe chat pd openai_api_key
    df prompt =
    (engine_calls openai_api_key df prompt
       ++ [call_DataFrame result;
           print "Could Not Convert Result To DataFrame"],
     Return result).
Proof.
  intros Hllm Hsdf Hchat Hshape Hctor.
  rewrite (chat_with_csv_replied _ _ _ _ _ Hllm Hsdf Hchat).
  cbn [bind]. rewrite Hshape.
  replace (isinstance_DataFrame result) with false
    by (by destruct result).
  by rewrite (convert_block_failure _ _ Hctor).
Qed.

(** What the dispatcher does with a list or dict that pandas accepts. *)
Lemma chat_with_csv_converted df prompt llm pandas_ai result t :
  OpenAi openai_api_key = Ok llm ->
  SmartDataframe df llm = Ok pandas_ai ->
  chat pandas_ai prompt = Ok result ->
  isinstance_list result || isinstance_dict result = true ->
  pd_DataFrame pd result = Ok t ->
  chat_with_csv OpenAi SmartDataframe chat pd openai_api_key
    df prompt =
    (engine_calls openai_api_key df prompt ++ [call_DataFrame result],
     Return (VDataFrame t)).
Proof.
  intros Hllm Hsdf Hchat Hshape Hctor.
  rewrite (chat_with_csv_replied _ _ _ _ _ Hllm Hsdf Hchat).
  cbn [bind]. rewrite Hshape.
  replace (isinstance_DataFrame result) with false
    by (by destruct result).
  by rewrite (convert_block_success _ _ Hctor).
Qed.

(** C1.  When the engine's reply is a list or a dict and building a
    table from it raises, the dispatcher still returns a value: the
    exception of the conversion step does not leave [chat_with_csv]. *)
Theorem conversion_error_does_not_escape df prompt llm pandas_ai result e :
  OpenAi openai_api_key = Ok llm ->
  SmartDataframe df llm = Ok pandas_ai ->
  chat pandas_ai prompt = Ok result ->
  isinstance_list result || isinstance_dict result = true ->
  pd_DataFrame pd result = Err e ->
  (exists v, (chat_with_csv OpenAi SmartDataframe chat pd
     openai_api_key df prompt).2 = Return v)
  /\ (forall e', (chat_with_csv OpenAi SmartDataframe chat pd
     openai_api_key df prompt).2 <> Raise e').
Proof.
  intros Hllm Hsdf Hchat Hshape Hctor.
  rewrite (chat_with_csv_refused _ _ _ _ _ _ Hllm Hsdf Hchat Hshape Hctor).
  split; [by eexists | done].
Qed.

(** C2, as the code has it.  When the engine's reply is a list or a dict
    and building a table from it fails, the handler prints one fixed line
    (the error itself is not shown) and the function runs on to its last
    statement, which returns the reply as the engine gave it. *)
Theorem conversion_error_returns_reply df prompt llm pandas_ai result e :
  OpenAi openai_api_key = Ok llm ->
  SmartDataframe df llm = Ok pandas_ai ->
  chat pandas_ai prompt = Ok result ->
  isinstance_list result || isinstance_dict result = true ->
  pd_DataFrame pd result = Err e ->
  chat_with_csv OpenAi SmartDataframe chat pd openai_api_key
    df prompt =
    ([call_OpenAi openai_api_key; call_SmartDataframe df; call_chat prompt;
      call_DataFrame result;
      print "Could Not Convert Result To DataFrame"],
     Return result).
Proof.
  intros Hllm Hsdf Hchat Hshape Hctor.
  by rewrite (chat_with_csv_refused _ _ _ _ _ _ Hllm Hsdf Hchat Hshape Hctor).
Qed.

(** C3.  A reply that already is a table comes back as it is. *)
Theorem table_reply_returned_unchanged df prompt llm pandas_ai t :
  OpenAi openai_api_key = Ok llm ->
  SmartDataframe df llm = Ok pandas_ai ->
  chat pandas_ai prompt = Ok (VDataFrame t) ->
  chat_with_csv OpenAi SmartDataframe chat pd openai_api_key
    df prompt =
    (engine_calls openai_api_key df prompt, Return (VDataFrame t)).
Proof.
  intros Hllm Hsdf Hchat.
  by rewrite (chat_with_csv_replied _ _ _ _ _ Hllm Hsdf Hchat).
Qed.

(** C5.  A reply that is no table, no list and no dict (a scalar, a
    text) comes back as it is. *)
Theorem scalar_reply_returned_unchanged df prompt llm pandas_ai result :
  OpenAi openai_api_key = Ok llm ->
  SmartDataframe df llm = Ok pandas_ai ->
  chat pandas_ai prompt = Ok result ->
  isinstance_DataFrame result = false ->
  isinstance_list result = false ->
  isinstance_dict result = false ->
  chat_with_csv OpenAi SmartDataframe chat pd openai_api_key
    df prompt =
    (engine_calls openai_api_key df prompt, Return result).
Proof.
  intros Hllm Hsdf Hchat Hdf Hlist Hdict.
  rewrite (chat_with_csv_replied _ _ _ _ _ Hllm Hsdf Hchat).
  cbn [bind]. by rewrite Hdf, Hlist, Hdict.
Qed.

(** C6.  The query itself is not guarded: an exception raised by
    [pandas_ai.chat] leaves the dispatcher as it is, and the handler of
    the conversion step never runs (nothing is converted or printed). *)
Theorem engine_error_propagates df prompt llm pandas_ai e :
  OpenAi openai_api_key = Ok llm ->
  SmartDataframe df llm = Ok pandas_ai ->
  chat pandas_ai prompt = Err e ->
  chat_with_csv OpenAi SmartDataframe chat pd openai_api_key
    df prompt =
    ([call_OpenAi openai_api_key; call_SmartDataframe df; call_chat prompt],
     Raise e).
Proof.
  intros Hllm Hsdf Hchat.
  unfold chat_with_csv, call.
  rewrite Hllm. cbn [bind]. rewrite Hsdf. cbn [bind]. by rewrite Hchat.
Qed.



End DispatcherFacts.

(** ** Facts about the page script *)

Section AppFacts.

Context {LLM SmartDf : Type}.
Variable OpenAi : option string -> result LLM.
Variable SmartDataframe : DataFrame -> LLM -> result SmartDf.
Variable chat : SmartDf -> string -> result pyval.
Variable pd : pandas_lib.
Variable load_dotenv : gmap string string -> gmap string string.
Variable pd_read_csv : string -> result DataFrame.

(** The run of the script when the key read at start-up is false. *)
Lemma app_key_falsy (s : session) :
  truthy (os_getenv (load_dotenv (os_environ s)) "OPENAI_API_KEY") = false ->
  app OpenAi SmartDataframe chat pd load_dotenv pd_read_csv s =
    ([call_load_dotenv; st_error key_missing_message; st_stop], Halted).
Proof.
  unfold app. intros ->. reflexivity.
Qed.

(** The run of the script when a file is there, the button is pressed and
    the dispatcher returns. *)
Lemma app_query_answered (s : session) input_csv data input_text t result :
  truthy (os_getenv (load_dotenv (os_environ s)) "OPENAI_API_KEY") = true ->
  file_uploader_value s = Some input_csv ->
  pd_read_csv input_csv = Ok data ->
  text_area_value s = Some input_text ->
  button_value s = true ->
  chat_with_csv OpenAi SmartDataframe chat pd
    (os_getenv (load_dotenv (os_environ s)) "OPENAI_API_KEY")
    data input_text = (t, Return result) ->
  app OpenAi SmartDataframe chat pd load_dotenv pd_read_csv s =
    (page_before_query input_csv data input_text
       ++ (in_column 2 <$> t)
       ++ (in_column 2 <$>
             match result with
             | VDataFrame table => [st_dataframe table true; st_success result]
             | _ => [st_success result]
             end),
     Return tt).
Proof.
  intros Hkey Hfile Hcsv Htext Hbutton Hchat.
  unfold app, col1_block, col2_block, call.
  rewrite Hkey, Hfile, Hcsv, Htext, Hbutton. cbn -[chat_with_csv "+:+"].
  rewrite Hchat.
  destruct result; cbn -[String.append]; by rewrite fmap_app.
Qed.

(** C7.  When the key is absent from the environment the script reads,
    the run is the error message followed by the stop: it halts there,
    and no effect of the run belongs to the upload or query widgets, to
    the making of a table or to the engine. *)
Theorem missing_key_halts_startup (s : session) :
  os_getenv (load_dotenv (os_environ s)) "OPENAI_API_KEY" = None ->
  app OpenAi SmartDataframe chat pd load_dotenv pd_read_csv s =
    ([call_load_dotenv; st_error key_missing_message; st_stop], Halted)
  /\ Forall (fun e => past_startup e = false)
            (app OpenAi SmartDataframe chat pd load_dotenv
                 pd_read_csv s).1.
Proof.
  intros Hkey.
  assert (app OpenAi SmartDataframe chat pd load_dotenv
              pd_read_csv s =
    ([call_load_dotenv; st_error key_missing_message; st_stop], Halted)) as ->
    by (apply app_key_falsy; by rewrite Hkey).
  split; [done|]. by repeat constructor.
Qed.

(** C9.  A key that is set but empty is treated as an absent one: the
    same error message, the same stop, nothing of the page built. *)
Theorem empty_key_halts_startup (s : session) :
  os_getenv (load_dotenv (os_environ s)) "OPENAI_API_KEY" = Some EmptyString ->
  app OpenAi SmartDataframe chat pd load_dotenv pd_read_csv s =
    ([call_load_dotenv; st_error key_missing_message; st_stop], Halted)
  /\ Forall (fun e => past_startup e = false)
            (app OpenAi SmartDataframe chat pd load_dotenv
                 pd_read_csv s).1.
Proof.
  intros Hkey.
  assert (app OpenAi SmartDataframe chat pd load_dotenv
              pd_read_csv s =
    ([call_load_dotenv; st_error key_missing_message; st_stop], Halted)) as ->
    by (apply app_key_falsy; by rewrite Hkey).
  split; [done|]. by repeat constructor.
Qed.

(** C8.  After the dispatcher has returned, its result always goes to
    [st.success]; a table goes to [st.dataframe] first, so it is shown
    twice, and any other result is shown once. *)
Theorem result_always_shown_by_success (s : session)
    input_csv data input_text t result :
  truthy (os_getenv (load_dotenv (os_environ s)) "OPENAI_API_KEY") = true ->
  file_uploader_value s = Some input_csv ->
  pd_read_csv input_csv = Ok data ->
  text_area_value s = Some input_text ->
  button_value s = true ->
  chat_with_csv OpenAi SmartDataframe chat pd
    (os_getenv (load_dotenv (os_environ s)) "OPENAI_API_KEY")
    data input_text = (t, Return result) ->
  exists shown,
    app OpenAi SmartDataframe chat pd load_dotenv pd_read_csv s =
      (page_before_query input_csv data input_text
         ++ (in_column 2 <$> t) ++ (in_column 2 <$> shown),
       Return tt)
    /\ last shown = Some (st_success result)
    /\ (forall table, result = VDataFrame table ->
          shown = [st_dataframe table true; st_success result])
    /\ (isinstance_DataFrame result = false -> shown = [st_success result]).
Proof.
  intros Hkey Hfile Hcsv Htext Hbutton Hchat.
  eexists. split.
  - by apply app_query_answered.
  - destruct result; (split; [done|]); (split; [by intros ? [= <-]|done]).
Qed.

End AppFacts.

(** ** Every run of the dispatcher *)

Section DispatcherRuns.

Context {LLM SmartDf : Type}.
Variable OpenAi : option string -> result LLM.
Variable SmartDataframe : DataFrame -> LLM -> result SmartDf.
Variable chat : SmartDf -> string -> result pyval.
Variable pd : pandas_lib.
Variable openai_api_key : option string.

(** Whatever the libraries answer, the dispatcher takes one of the six
    ways. *)
Lemma chat_with_csv_run df prompt :
  dispatch_run OpenAi SmartDataframe chat pd openai_api_key
    df prompt
    (chat_with_csv OpenAi SmartDataframe chat pd openai_api_key
       df prompt).
Proof.
  destruct (OpenAi openai_api_key) as [llm|e] eqn:Hllm.
  2: { unfold chat_with_csv, call. rewrite Hllm. by apply run_llm_error. }
  destruct (SmartDataframe df llm) as [pandas_ai|e] eqn:Hsdf.
  2: { unfold chat_with_csv, call. rewrite Hllm. cbn [bind]. rewrite Hsdf.
       by eapply run_session_error. }
  destruct (chat pandas_ai prompt) as [reply|e] eqn:Hchat.
  2: { unfold chat_with_csv, call. rewrite Hllm. cbn [bind]. rewrite Hsdf.
       cbn [bind]. rewrite Hchat. by eapply run_query_error. }
  destruct (isinstance_list reply || isinstance_dict reply) eqn:Hshape.
  - destruct (pd_DataFrame pd reply) as [t|e] eqn:Hctor.
    + rewrite (chat_with_csv_converted _ _ _ _ _ _ _ _ _ _ _ Hllm Hsdf Hchat
                 Hshape Hctor).
      by eapply run_converted.
    + rewrite (chat_with_csv_refused _ _ _ _ _ _ _ _ _ _ _ Hllm Hsdf Hchat
                 Hshape Hctor).
      by eapply run_refused.
  - rewrite (chat_with_csv_replied _ _ _ _ _ _ _ _ _ _ Hllm Hsdf Hchat).
    cbn [bind]. rewrite Hshape.
    replace (if isinstance_DataFrame reply then ret reply else ret reply)
      with (ret reply) by (by destruct (isinstance_DataFrame reply)).
    cbn. by eapply run_passed.
Qed.

(** No run of the dispatcher ends halted. *)
Lemma chat_with_csv_not_halted df prompt t :
  chat_with_csv OpenAi SmartDataframe chat pd openai_api_key
    df prompt <> (t, Halted).
Proof. by destruct (chat_with_csv_run df prompt). Qed.

(** X1.  The dispatcher raises only what the engine raised: an exception
    that leaves [chat_with_csv] comes from [OpenAi], from [SmartDataframe]
    or from [pandas_ai.chat], never from the conversion of the reply. *)
Theorem dispatcher_raises_only_engine_errors df prompt e :
  (chat_with_csv OpenAi SmartDataframe chat pd openai_api_key
     df prompt).2 = Raise e ->
  OpenAi openai_api_key = Err e
  \/ (exists llm, OpenAi openai_api_key = Ok llm
                  /\ SmartDataframe df llm = Err e)
  \/ (exists llm pandas_ai,
        OpenAi openai_api_key = Ok llm
        /\ SmartDataframe df llm = Ok pandas_ai
        /\ chat pandas_ai prompt = Err e).
Proof.
  destruct (chat_with_csv_run df prompt); cbn; intros [= <-] || intros [=].
  - by left.
  - right. left. by eexists.
  - right. right. by do 2 eexists.
Qed.

(** X2.  What the dispatcher returns is the engine's reply, or the table
    pandas built from a reply that is a list or a dict; nothing else. *)
Theorem dispatcher_returns_reply_or_its_table df prompt v :
  (chat_with_csv OpenAi SmartDataframe chat pd openai_api_key
     df prompt).2 = Return v ->
  exists llm pandas_ai reply,
    OpenAi openai_api_key = Ok llm
    /\ SmartDataframe df llm = Ok pandas_ai
    /\ chat pandas_ai prompt = Ok reply
    /\ (v = reply
        \/ (isinstance_list reply || isinstance_dict reply = true
            /\ exists t, pd_DataFrame pd reply = Ok t
                         /\ v = VDataFrame t)).
Proof.
  destruct (chat_with_csv_run df prompt); cbn; intros [= <-] || intros [=];
    do 3 eexists; (repeat split; [done..|]).
  - by left.
  - right. split; [done|]. by eexists.
  - by left.
Qed.

(** X3.  A list or a dict comes out of the dispatcher only as the reply
    pandas refused: the result is then the reply itself and the table
    constructor raised on it. *)
Theorem list_or_dict_result_was_refused df prompt v :
  (chat_with_csv OpenAi SmartDataframe chat pd openai_api_key
     df prompt).2 = Return v ->
  isinstance_list v || isinstance_dict v = true ->
  exists llm pandas_ai e,
    OpenAi openai_api_key = Ok llm
    /\ SmartDataframe df llm = Ok pandas_ai
    /\ chat pandas_ai prompt = Ok v
    /\ pd_DataFrame pd v = Err e.
Proof.
  destruct (chat_with_csv_run df prompt) as
    [| | |llm pandas_ai reply Hllm Hsdf Hchat Hshape
     |llm pandas_ai reply t Hllm Hsdf Hchat Hshape Hctor
     |llm pandas_ai reply e Hllm Hsdf Hchat Hshape Hctor];
    cbn; intros [= <-] || intros [=]; intros Hv.
  - by rewrite Hshape in Hv.
  - done.
  - by exists llm, pandas_ai, e.
Qed.

(** X4.  The dispatcher shows nothing and never stops the script: no
    effect of a run is a Streamlit call, and no run ends halted. *)
Theorem dispatcher_never_touches_page df prompt :
  Forall (fun ev => is_widget ev = false)
         (chat_with_csv OpenAi SmartDataframe chat pd
            openai_api_key df prompt).1
  /\ (chat_with_csv OpenAi SmartDataframe chat pd
        openai_api_key df prompt).2 <> Halted.
Proof.
  destruct (chat_with_csv_run df prompt); cbn; (split; [|done]);
    by repeat constructor.
Qed.

(** X5.  A failure to set up the model leaves the dispatcher at once: the
    session is not opened and no query is sent. *)
Theorem model_error_propagates df prompt e :
  OpenAi openai_api_key = Err e ->
  chat_with_csv OpenAi SmartDataframe chat pd openai_api_key
    df prompt = ([call_OpenAi openai_api_key], Raise e).
Proof.
  intros Hllm. unfold chat_with_csv, call. by rewrite Hllm.
Qed.

(** X6.  A failure to open the session on the table leaves the dispatcher
    before any query is sent. *)
Theorem session_error_propagates df prompt llm e :
  OpenAi openai_api_key = Ok llm ->
  SmartDataframe df llm = Err e ->
  chat_with_csv OpenAi SmartDataframe chat pd openai_api_key
    df prompt =
    ([call_OpenAi openai_api_key; call_SmartDataframe df], Raise e).
Proof.
  intros Hllm Hsdf. unfold chat_with_csv, call.
  rewrite Hllm. cbn [bind]. by rewrite Hsdf.
Qed.

(** X7.  The dispatcher prints exactly when a conversion failed: a line
    is on standard output if and only if the reply was a list or a dict
    that the table constructor refused, and the line is the fixed one. *)
Theorem prints_exactly_on_refusal df prompt line :
  print line ∈ (chat_with_csv OpenAi SmartDataframe chat pd
                  openai_api_key df prompt).1
  <-> line = "Could Not Convert Result To DataFrame"
      /\ exists llm pandas_ai reply e,
           OpenAi openai_api_key = Ok llm
           /\ SmartDataframe df llm = Ok pandas_ai
           /\ chat pandas_ai prompt = Ok reply
           /\ isinstance_list reply || isinstance_dict reply = true
           /\ pd_DataFrame pd reply = Err e.
Proof.
  split.
  - destruct (chat_with_csv_run df prompt) as
      [| | | | |llm pandas_ai reply e Hllm Hsdf Hchat Hshape Hctor];
      cbn; intros Hin; repeat (apply elem_of_cons in Hin as [[=]|Hin]);
      try by apply elem_of_nil in Hin.
    subst. split; [done|]. by exists llm, pandas_ai, reply, e.
  - intros (-> & llm & pandas_ai & reply & e & Hllm & Hsdf & Hchat & Hshape
            & Hctor).
    rewrite (chat_with_csv_refused _ _ _ _ _ _ _ _ _ _ _ Hllm Hsdf Hchat
               Hshape Hctor).
    cbn. do 4 right. left.
Qed.

(** X8.  The table constructor is tried only on the engine's reply and only
    when that reply is a list or a dict: a table or a scalar reply is never
    handed to [pd.DataFrame]. *)
Theorem converts_only_list_or_dict_reply df prompt data :
  call_DataFrame data ∈
    (chat_with_csv OpenAi SmartDataframe chat pd
       openai_api_key df prompt).1 ->
  isinstance_list data || isinstance_dict data = true
  /\ exists llm pandas_ai,
       OpenAi openai_api_key = Ok llm
       /\ SmartDataframe df llm = Ok pandas_ai
       /\ chat pandas_ai prompt = Ok data.
Proof.
  destruct (chat_with_csv_run df prompt) as
    [| | | |llm pandas_ai reply t Hllm Hsdf Hchat Hshape Hctor
     |llm pandas_ai reply e Hllm Hsdf Hchat Hshape Hctor];
    cbn; intros Hin; repeat (apply elem_of_cons in Hin as [[=]|Hin]);
    try (by apply elem_of_nil in Hin); subst;
    (split; [done|]); by exists llm, pandas_ai.
Qed.

End DispatcherRuns.

(** ** Every run of the page *)

Lemma flat_map_in_column {A} (f : event -> list A) (c : nat) (t : list event) :
  (forall e, f (in_column c e) = f e) ->
  flat_map f (in_column c <$> t) = flat_map f t.
Proof.
  intros Hf. induction t as [|e t IH]; [done|].
  cbn. by rewrite Hf, IH.
Qed.

Lemma filter_in_column (p : event -> bool) (c : nat) (t : list event) :
  (forall e, p (in_column c e) = p e) ->
  length (List.filter p (in_column c <$> t)) = length (List.filter p t).
Proof.
  intros Hp. induction t as [|e t IH]; [done|].
  cbn. rewrite Hp. destruct (p e); cbn; by rewrite IH.
Qed.

Section PageRunFacts.

Context {LLM SmartDf : Type}.
Variable OpenAi : option string -> result LLM.
Variable SmartDataframe : DataFrame -> LLM -> result SmartDf.
Variable chat : SmartDf -> string -> result pyval.
Variable pd : pandas_lib.
Variable load_dotenv : gmap string string -> gmap string string.
Variable pd_read_csv : string -> result DataFrame.

(** Every run of the dispatcher hands the engine the key once. *)
Lemma chat_with_csv_tokens openai_api_key df prompt :
  flat_map openai_tokens
    (chat_with_csv OpenAi SmartDataframe chat pd openai_api_key
       df prompt).1 = [openai_api_key].
Proof.
  by destruct (chat_with_csv_run OpenAi SmartDataframe chat pd
                 openai_api_key df prompt).
Qed.

(** No run of the dispatcher sends more than one query. *)
Lemma chat_with_csv_queries openai_api_key df prompt :
  length (List.filter is_engine_query
            (chat_with_csv OpenAi SmartDataframe chat pd
               openai_api_key df prompt).1) <= 1.
Proof.
  destruct (chat_with_csv_run OpenAi SmartDataframe chat pd
              openai_api_key df prompt); cbn; lia.
Qed.

(** Whatever the inputs and the libraries answer, the script takes one of
    the seven ways. *)
Lemma app_run (s : session) :
  page_run OpenAi SmartDataframe chat pd load_dotenv pd_read_csv
    s (app OpenAi SmartDataframe chat pd load_dotenv
           pd_read_csv s).
Proof.
  destruct (truthy (os_getenv (load_dotenv (os_environ s)) "OPENAI_API_KEY"))
    eqn:Hkey.
  2: { rewrite app_key_falsy by done. by apply page_halted. }
  destruct (file_uploader_value s) as [input_csv|] eqn:Hfile.
  2: { unfold app. rewrite Hkey, Hfile. by apply page_idle. }
  destruct (pd_read_csv input_csv) as [data|e] eqn:Hcsv.
  2: { unfold app, col1_block, call. rewrite Hkey, Hfile, Hcsv.
       by eapply page_unparsed. }
  destruct (text_area_value s) as [input_text|] eqn:Htext.
  2: { unfold app, col1_block, col2_block, call.
       rewrite Hkey, Hfile, Hcsv, Htext. by eapply page_untyped. }
  destruct (button_value s) eqn:Hbutton.
  2: { unfold app, col1_block, col2_block, call.
       rewrite Hkey, Hfile, Hcsv, Htext, Hbutton. by eapply page_waiting. }
  destruct (chat_with_csv OpenAi SmartDataframe chat pd
              (os_getenv (load_dotenv (os_environ s)) "OPENAI_API_KEY")
              data input_text) as [t o] eqn:Hchat.
  destruct o as [result|e|].
  - rewrite (app_query_answered _ _ _ _ _ _ _ _ _ _ _ _ Hkey Hfile Hcsv Htext
               Hbutton Hchat).
    by eapply page_answered.
  - unfold app, col1_block, col2_block, call.
    rewrite Hkey, Hfile, Hcsv, Htext, Hbutton. cbn -[chat_with_csv "+:+"].
    rewrite Hchat. cbn -[String.append]. by eapply page_failed.
  - by apply chat_with_csv_not_halted in Hchat.
Qed.

(** X9.  With a key but no uploaded file the page is its header only: no
    column is made, nothing is parsed and the engine is not called. *)
Theorem page_without_upload (s : session) :
  truthy (os_getenv (load_dotenv (os_environ s)) "OPENAI_API_KEY") = true ->
  file_uploader_value s = None ->
  app OpenAi SmartDataframe chat pd load_dotenv pd_read_csv s =
    (page_header, Return tt).
Proof.
  intros Hkey Hfile. unfold app. by rewrite Hkey, Hfile.
Qed.

(** X10.  A file that cannot be parsed ends the run with the parser's
    exception: the table is not shown and the query column is never
    built. *)
Theorem parse_error_propagates (s : session) input_csv e :
  truthy (os_getenv (load_dotenv (os_environ s)) "OPENAI_API_KEY") = true ->
  file_uploader_value s = Some input_csv ->
  pd_read_csv input_csv = Err e ->
  app OpenAi SmartDataframe chat pd load_dotenv pd_read_csv s =
    (page_header
       ++ [st_columns [1; 1]%Z;
           in_column 1 (st_info "✅ CSV File Uploaded Successfully");
           in_column 1 (call_read_csv input_csv)],
     Raise e).
Proof.
  intros Hkey Hfile Hcsv. unfold app, col1_block, call.
  by rewrite Hkey, Hfile, Hcsv.
Qed.

(** X11.  Until the button is pressed the page only shows the table and
    the query widgets: the dispatcher is not called, whatever is typed. *)
Theorem no_query_before_button (s : session) input_csv data input_text :
  truthy (os_getenv (load_dotenv (os_environ s)) "OPENAI_API_KEY") = true ->
  file_uploader_value s = Some input_csv ->
  pd_read_csv input_csv = Ok data ->
  text_area_value s = Some input_text ->
  button_value s = false ->
  app OpenAi SmartDataframe chat pd load_dotenv pd_read_csv s =
    (page_header ++ page_loaded input_csv data
       ++ [in_column 2 (st_button "Chat With CSV")],
     Return tt)
  /\ flat_map openai_tokens
       (app OpenAi SmartDataframe chat pd load_dotenv
            pd_read_csv s).1 = []
  /\ List.filter is_engine_query
       (app OpenAi SmartDataframe chat pd load_dotenv
            pd_read_csv s).1 = [].
Proof.
  intros Hkey Hfile Hcsv Htext Hbutton.
  assert (app OpenAi SmartDataframe chat pd load_dotenv
              pd_read_csv s =
          (page_header ++ page_loaded input_csv data
             ++ [in_column 2 (st_button "Chat With CSV")], Return tt)) as ->.
  { unfold app, col1_block, col2_block, call.
    by rewrite Hkey, Hfile, Hcsv, Htext, Hbutton. }
  done.
Qed.

(** X12.  The page has no handler of its own: an exception that leaves the
    dispatcher ends the run, after the query was echoed and before any
    result widget. *)
Theorem dispatcher_error_ends_page (s : session)
    input_csv data input_text t e :
  truthy (os_getenv (load_dotenv (os_environ s)) "OPENAI_API_KEY") = true ->
  file_uploader_value s = Some input_csv ->
  pd_read_csv input_csv = Ok data ->
  text_area_value s = Some input_text ->
  button_value s = true ->
  chat_with_csv OpenAi SmartDataframe chat pd
    (os_getenv (load_dotenv (os_environ s)) "OPENAI_API_KEY")
    data input_text = (t, Raise e) ->
  app OpenAi SmartDataframe chat pd load_dotenv pd_read_csv s =
    (page_before_query input_csv data input_text ++ (in_column 2 <$> t),
     Raise e).
Proof.
  intros Hkey Hfile Hcsv Htext Hbutton Hchat.
  unfold app, col1_block, col2_block, call.
  rewrite Hkey, Hfile, Hcsv, Htext, Hbutton. cbn -[chat_with_csv "+:+"].
  by rewrite Hchat.
Qed.

(** X13.  The script is halted exactly when the key it read is missing or
    empty: no other way through the page stops it. *)
Theorem page_halts_iff_key_falsy (s : session) :
  (app OpenAi SmartDataframe chat pd load_dotenv
       pd_read_csv s).2 = Halted
  <-> truthy (os_getenv (load_dotenv (os_environ s)) "OPENAI_API_KEY")
      = false.
Proof.
  split.
  - by destruct (app_run s).
  - intros Hkey. by rewrite app_key_falsy.
Qed.

(** X14.  The engine never gets a missing or empty key: every token
    handed to [OpenAi] in a run of the page is the key read at start-up,
    and that key is a non-empty string. *)
Theorem engine_gets_checked_key (s : session) (api_token : option string) :
  api_token ∈ flat_map openai_tokens
                (app OpenAi SmartDataframe chat pd load_dotenv
                     pd_read_csv s).1 ->
  api_token = os_getenv (load_dotenv (os_environ s)) "OPENAI_API_KEY"
  /\ truthy api_token = true.
Proof.
  destruct (app_run s) as
    [| | | |
     |input_csv data input_text t result Hkey Hfile Hcsv Htext Hbutton Hchat
     |input_csv data input_text t e Hkey Hfile Hcsv Htext Hbutton Hchat];
    cbn [fst]; try (by intros ?%elem_of_nil).
  - rewrite !flat_map_app, !flat_map_in_column by done.
    replace t with (t, Return result).1 by done.
    rewrite <- Hchat, chat_with_csv_tokens.
    replace (flat_map openai_tokens (result_widgets result)) with
      (@nil (option string)) by (by destruct result).
    by intros [->|?%elem_of_nil]%elem_of_cons.
  - rewrite !flat_map_app, !flat_map_in_column by done.
    replace t with (t, @Raise pyval e).1 by done.
    rewrite <- Hchat, chat_with_csv_tokens.
    by intros [->|?%elem_of_nil]%elem_of_cons.
Qed.

(** X15.  One run of the page sends the engine at most one query: there
    is no retry and no second call. *)
Theorem at_most_one_query_per_run (s : session) :
  length (List.filter is_engine_query
            (app OpenAi SmartDataframe chat pd load_dotenv
                 pd_read_csv s).1) <= 1.
Proof.
  destruct (app_run s) as
    [| | | |
     |input_csv data input_text t result Hkey Hfile Hcsv Htext Hbutton Hchat
     |input_csv data input_text t e Hkey Hfile Hcsv Htext Hbutton Hchat];
    cbn [fst]; try (cbn; lia).
  - rewrite !List.filter_app, !length_app, !filter_in_column by done.
    replace t with (t, Return result).1 by done.
    rewrite <- Hchat.
    pose proof (chat_with_csv_queries
                  (os_getenv (load_dotenv (os_environ s)) "OPENAI_API_KEY")
                  data input_text) as Hone.
    replace (length (List.filter is_engine_query (result_widgets result)))
      with 0 by (by destruct result).
    revert Hone. generalize (length (List.filter is_engine_query
      (chat_with_csv OpenAi SmartDataframe chat pd
         (os_getenv (load_dotenv (os_environ s)) "OPENAI_API_KEY")
         data input_text).1)).
    intros n Hone. cbn. lia.
  - rewrite !List.filter_app, !length_app, !filter_in_column by done.
    replace t with (t, @Raise pyval e).1 by done.
    rewrite <- Hchat.
    pose proof (chat_with_csv_queries
                  (os_getenv (load_dotenv (os_environ s)) "OPENAI_API_KEY")
                  data input_text) as Hone.
    revert Hone. generalize (length (List.filter is_engine_query
      (chat_with_csv OpenAi SmartDataframe chat pd
         (os_getenv (load_dotenv (os_environ s)) "OPENAI_API_KEY")
         data input_text).1)).
    intros n Hone. cbn. lia.
Qed.

(** X16.  When the button is pressed and the engine can be set up, the
    engine is given the parsed table and the typed text as they are; the
    text is not checked, so an empty one is sent too. *)
Theorem page_forwards_table_and_text (s : session)
    input_csv data input_text llm pandas_ai :
  truthy (os_getenv (load_dotenv (os_environ s)) "OPENAI_API_KEY") = true ->
  file_uploader_value s = Some input_csv ->
  pd_read_csv input_csv = Ok data ->
  text_area_value s = Some input_text ->
  button_value s = true ->
  OpenAi (os_getenv (load_dotenv (os_environ s)) "OPENAI_API_KEY") = Ok llm ->
  SmartDataframe data llm = Ok pandas_ai ->
  exists rest,
    (app OpenAi SmartDataframe chat pd load_dotenv
         pd_read_csv s).1 =
      page_before_query input_csv data input_text
        ++ [in_column 2
              (call_OpenAi
                 (os_getenv (load_dotenv (os_environ s)) "OPENAI_API_KEY"));
            in_column 2 (call_SmartDataframe data);
            in_column 2 (call_chat input_text)]
        ++ rest.
Proof.
  intros Hkey Hfile Hcsv Htext Hbutton Hllm Hsdf.
  destruct (app_run s) as
    [?| | | |
     |input_csv' data' input_text' t result ? Hfile' Hcsv' Htext' ? Hchat
     |input_csv' data' input_text' t e ? Hfile' Hcsv' Htext' ? Hchat];
    try congruence.
  all: rewrite Hfile in Hfile'; injection Hfile' as <-;
    rewrite Hcsv in Hcsv'; injection Hcsv' as <-;
    rewrite Htext in Htext'; injection Htext' as <-.
  all: cbn [fst].
  all: destruct (chat_with_csv_run OpenAi SmartDataframe chat pd
                   (os_getenv (load_dotenv (os_environ s)) "OPENAI_API_KEY")
                   data input_text); try congruence.
  all: injection Hchat as <- ?.
  all: unfold engine_calls; cbn [fmap list_fmap List.app]; eexists;
    rewrite <- ?app_assoc; cbn [List.app]; reflexivity.
Qed.

(** X17.  The page raises only what a library raised: an exception that
    ends a run comes from parsing the uploaded file or from the
    dispatcher. *)
Theorem page_raises_only_library_errors (s : session) e :
  (app OpenAi SmartDataframe chat pd load_dotenv
       pd_read_csv s).2 = Raise e ->
  (exists input_csv,
     file_uploader_value s = Some input_csv
     /\ pd_read_csv input_csv = Err e)
  \/ (exists input_csv data input_text t,
        file_uploader_value s = Some input_csv
        /\ pd_read_csv input_csv = Ok data
        /\ text_area_value s = Some input_text
        /\ button_value s = true
        /\ chat_with_csv OpenAi SmartDataframe chat pd
             (os_getenv (load_dotenv (os_environ s)) "OPENAI_API_KEY")
             data input_text = (t, Raise e)).
Proof.
  destruct (app_run s) as
    [| |input_csv e' Hkey Hfile Hcsv| |
     |
     |input_csv data input_text t e' Hkey Hfile Hcsv Htext Hbutton Hchat];
    cbn [snd]; intros [= <-] || intros [=].
  - left. by exists input_csv.
  - right. by exists input_csv, data, input_text, t.
Qed.

End PageRunFacts.

(** ** The statements at work on concrete runs *)

(** The spec's example of a record list, [[{"a":1,"b":2},{"a":3,"b":4}]]. *)
Example dispatch_record_list :
  (demo_dispatch (VList (VDict <$> demo_records))).2
  = Return (VDataFrame (Frame ["a"; "b"] [[VInt 1; VInt 2]; [VInt 3; VInt 4]])).
Proof. reflexivity. Qed.

(** Records with the same keys written in another order. *)
Example dispatch_record_list_reordered :
  (demo_dispatch (VList [VDict [("a", VInt 1); ("b", VStr "x")];
                         VDict [("b", VStr "y"); ("a", VInt 3)]])).2
  = Return (VDataFrame (Frame ["a"; "b"]
                              [[VInt 1; VStr "x"]; [VInt 3; VStr "y"]])).
Proof. reflexivity. Qed.

(** Records of numbers that are no integers are a table just the same. *)
Example dispatch_record_list_floats :
  (demo_dispatch (VList [VDict [("avg", VFloat float_3_5)];
                         VDict [("avg", VFloat float_0_25)]])).2
  = Return (VDataFrame
              (Frame ["avg"] [[VFloat float_3_5]; [VFloat float_0_25]])).
Proof. reflexivity. Qed.

(** The spec's example of a text reply. *)
Example dispatch_text : (demo_dispatch (VStr "42")).2 = Return (VStr "42").
Proof. reflexivity. Qed.

(** An empty dict is no failure of the constructor: it is the empty table. *)
Example dispatch_empty_dict :
  (demo_dispatch (VDict [])).2 = Return (VDataFrame (Frame [] [])).
Proof. reflexivity. Qed.

Lemma conversion_error_does_not_escape_witness :
  (exists v, (demo_dispatch (VDict [("a", VInt 1)])).2 = Return v)
  /\ (forall e', (demo_dispatch (VDict [("a", VInt 1)])).2 <> Raise e').
Proof.
  apply (conversion_error_does_not_escape demo_OpenAi demo_SmartDataframe
           (demo_chat (VDict [("a", VInt 1)])) demo_pd
           (Some "sk-demo") demo_table "total sales?" (Some "sk-demo")
           demo_table (VDict [("a", VInt 1)])
           (ValueError all_scalars_message)); reflexivity.
Defined.

Lemma conversion_error_returns_reply_witness :
  demo_dispatch (VDict [("x", VStr "1"); ("y", VNone)]) =
    ([call_OpenAi (Some "sk-demo"); call_SmartDataframe demo_table;
      call_chat "total sales?";
      call_DataFrame (VDict [("x", VStr "1"); ("y", VNone)]);
      print "Could Not Convert Result To DataFrame"],
     Return (VDict [("x", VStr "1"); ("y", VNone)])).
Proof.
  apply (conversion_error_returns_reply demo_OpenAi demo_SmartDataframe
           (demo_chat (VDict [("x", VStr "1"); ("y", VNone)]))
           demo_pd (Some "sk-demo") demo_table "total sales?"
           (Some "sk-demo") demo_table (VDict [("x", VStr "1"); ("y", VNone)])
           (ValueError all_scalars_message)); reflexivity.
Defined.

(** C2, as the spec has it, fails: on [{"a": 1}] the constructor raises,
    yet the dispatcher's result is that very dict, not a missing value. *)
Lemma conversion_error_reply_not_dropped :
  pd_DataFrame demo_pd (VDict [("a", VInt 1)])
  = Err (ValueError all_scalars_message)
  /\ (demo_dispatch (VDict [("a", VInt 1)])).2 = Return (VDict [("a", VInt 1)])
  /\ (demo_dispatch (VDict [("a", VInt 1)])).2 <> Return VNone.
Proof. repeat split. discriminate. Qed.

Lemma table_reply_returned_unchanged_witness :
  demo_dispatch (VDataFrame demo_table) =
    (engine_calls (Some "sk-demo") demo_table "total sales?",
     Return (VDataFrame demo_table)).
Proof.
  apply (table_reply_returned_unchanged demo_OpenAi demo_SmartDataframe
           (demo_chat (VDataFrame demo_table)) demo_pd
           (Some "sk-demo") demo_table "total sales?" (Some "sk-demo")
           demo_table demo_table); reflexivity.
Defined.


Lemma scalar_reply_returned_unchanged_witness :
  demo_dispatch (VStr "42") =
    (engine_calls (Some "sk-demo") demo_table "total sales?",
     Return (VStr "42")).
Proof.
  apply (scalar_reply_returned_unchanged demo_OpenAi demo_SmartDataframe
           (demo_chat (VStr "42")) demo_pd
           (Some "sk-demo") demo_table "total sales?" (Some "sk-demo")
           demo_table (VStr "42")); reflexivity.
Defined.

Lemma engine_error_propagates_witness :
  chat_with_csv demo_OpenAi demo_SmartDataframe
    (demo_chat_fails (Exc "APIConnectionError" "connection refused"))
    demo_pd (Some "sk-demo") demo_table "total sales?" =
    ([call_OpenAi (Some "sk-demo"); call_SmartDataframe demo_table;
      call_chat "total sales?"],
     Raise (Exc "APIConnectionError" "connection refused")).
Proof.
  apply (engine_error_propagates demo_OpenAi demo_SmartDataframe
           (demo_chat_fails (Exc "APIConnectionError" "connection refused"))
           demo_pd (Some "sk-demo") demo_table "total sales?"
           (Some "sk-demo") demo_table); reflexivity.
Defined.



Lemma missing_key_halts_startup_witness :
  demo_page (VStr "42") ∅ =
    ([call_load_dotenv; st_error key_missing_message; st_stop], Halted)
  /\ Forall (fun e => past_startup e = false) (demo_page (VStr "42") ∅).1.
Proof.
  apply (missing_key_halts_startup demo_OpenAi demo_SmartDataframe
           (demo_chat (VStr "42")) demo_pd demo_load_dotenv
           demo_read_csv (demo_session ∅)); reflexivity.
Defined.

Lemma empty_key_halts_startup_witness :
  demo_page (VStr "42") {[ "OPENAI_API_KEY" := EmptyString ]} =
    ([call_load_dotenv; st_error key_missing_message; st_stop], Halted)
  /\ Forall (fun e => past_startup e = false)
            (demo_page (VStr "42") {[ "OPENAI_API_KEY" := EmptyString ]}).1.
Proof.
  apply (empty_key_halts_startup demo_OpenAi demo_SmartDataframe
           (demo_chat (VStr "42")) demo_pd demo_load_dotenv
           demo_read_csv
           (demo_session {[ "OPENAI_API_KEY" := EmptyString ]})); reflexivity.
Defined.

Lemma result_always_shown_by_success_witness :
  exists shown,
    demo_page (VDataFrame demo_table) {[ "OPENAI_API_KEY" := "sk-demo" ]} =
      (page_before_query "city,sales" demo_table "total sales?"
         ++ (in_column 2 <$>
               engine_calls (Some "sk-demo") demo_table "total sales?")
         ++ (in_column 2 <$> shown),
       Return tt)
    /\ last shown = Some (st_success (VDataFrame demo_table))
    /\ (forall table, VDataFrame demo_table = VDataFrame table ->
          shown = [st_dataframe table true;
                   st_success (VDataFrame demo_table)])
    /\ (isinstance_DataFrame (VDataFrame demo_table) = false ->
        shown = [st_success (VDataFrame demo_table)]).
Proof.
  apply (result_always_shown_by_success demo_OpenAi demo_SmartDataframe
           (demo_chat (VDataFrame demo_table)) demo_pd
           demo_load_dotenv demo_read_csv
           (demo_session {[ "OPENAI_API_KEY" := "sk-demo" ]})
           "city,sales" demo_table "total sales?"
           (engine_calls (Some "sk-demo") demo_table "total sales?")
           (VDataFrame demo_table)); reflexivity.
Defined.

(** ** The further statements at work on concrete runs *)

Lemma dispatcher_raises_only_engine_errors_witness :
  demo_OpenAi (Some "sk-demo") = Err (Exc "Timeout" "no answer")
  \/ (exists llm, demo_OpenAi (Some "sk-demo") = Ok llm
                  /\ demo_SmartDataframe demo_table llm
                     = Err (Exc "Timeout" "no answer"))
  \/ (exists llm pandas_ai,
        demo_OpenAi (Some "sk-demo") = Ok llm
        /\ demo_SmartDataframe demo_table llm = Ok pandas_ai
        /\ demo_chat_fails (Exc "Timeout" "no answer") pandas_ai
             "total sales?" = Err (Exc "Timeout" "no answer")).
Proof.
  apply (dispatcher_raises_only_engine_errors demo_OpenAi demo_SmartDataframe
           (demo_chat_fails (Exc "Timeout" "no answer")) demo_pd
           (Some "sk-demo") demo_table "total sales?"
           (Exc "Timeout" "no answer")); reflexivity.
Defined.

Lemma dispatcher_returns_reply_or_its_table_witness :
  exists llm pandas_ai reply,
    demo_OpenAi (Some "sk-demo") = Ok llm
    /\ demo_SmartDataframe demo_table llm = Ok pandas_ai
    /\ demo_chat (VList (VDict <$> demo_records)) pandas_ai "total sales?"
       = Ok reply
    /\ (VDataFrame (Frame ["a"; "b"] [[VInt 1; VInt 2]; [VInt 3; VInt 4]])
        = reply
        \/ (isinstance_list reply || isinstance_dict reply = true
            /\ exists t,
                 pd_DataFrame demo_pd reply = Ok t
                 /\ VDataFrame
                      (Frame ["a"; "b"] [[VInt 1; VInt 2]; [VInt 3; VInt 4]])
                    = VDataFrame t)).
Proof.
  apply (dispatcher_returns_reply_or_its_table demo_OpenAi demo_SmartDataframe
           (demo_chat (VList (VDict <$> demo_records))) demo_pd
           (Some "sk-demo") demo_table "total sales?"); reflexivity.
Defined.

Lemma list_or_dict_result_was_refused_witness :
  exists llm pandas_ai e,
    demo_OpenAi (Some "sk-demo") = Ok llm
    /\ demo_SmartDataframe demo_table llm = Ok pandas_ai
    /\ demo_chat (VDict [("a", VInt 1)]) pandas_ai "total sales?"
       = Ok (VDict [("a", VInt 1)])
    /\ pd_DataFrame demo_pd (VDict [("a", VInt 1)]) = Err e.
Proof.
  apply (list_or_dict_result_was_refused demo_OpenAi demo_SmartDataframe
           (demo_chat (VDict [("a", VInt 1)])) demo_pd
           (Some "sk-demo") demo_table "total sales?"); reflexivity.
Defined.

Lemma model_error_propagates_witness :
  chat_with_csv demo_OpenAi_fails demo_SmartDataframe (demo_chat (VStr "42"))
    demo_pd (Some "sk-demo") demo_table "total sales?" =
    ([call_OpenAi (Some "sk-demo")],
     Raise (Exc "AuthenticationError" "invalid key")).
Proof.
  apply (model_error_propagates demo_OpenAi_fails demo_SmartDataframe
           (demo_chat (VStr "42")) demo_pd (Some "sk-demo")
           demo_table "total sales?"); reflexivity.
Defined.

Lemma session_error_propagates_witness :
  chat_with_csv demo_OpenAi demo_SmartDataframe_fails (demo_chat (VStr "42"))
    demo_pd (Some "sk-demo") demo_table "total sales?" =
    ([call_OpenAi (Some "sk-demo"); call_SmartDataframe demo_table],
     Raise (Exc "ValueError" "invalid configuration")).
Proof.
  apply (session_error_propagates demo_OpenAi demo_SmartDataframe_fails
           (demo_chat (VStr "42")) demo_pd (Some "sk-demo")
           demo_table "total sales?" (Some "sk-demo")); reflexivity.
Defined.

Lemma converts_only_list_or_dict_reply_witness :
  isinstance_list (VDict [("a", VInt 1)])
    || isinstance_dict (VDict [("a", VInt 1)]) = true
  /\ exists llm pandas_ai,
       demo_OpenAi (Some "sk-demo") = Ok llm
       /\ demo_SmartDataframe demo_table llm = Ok pandas_ai
       /\ demo_chat (VDict [("a", VInt 1)]) pandas_ai "total sales?"
          = Ok (VDict [("a", VInt 1)]).
Proof.
  apply (converts_only_list_or_dict_reply demo_OpenAi demo_SmartDataframe
           (demo_chat (VDict [("a", VInt 1)])) demo_pd
           (Some "sk-demo") demo_table "total sales?").
  vm_compute. repeat constructor.
Defined.

Lemma page_without_upload_witness :
  app demo_OpenAi demo_SmartDataframe (demo_chat (VStr "42"))
      demo_pd demo_load_dotenv demo_read_csv demo_session_idle =
    (page_header, Return tt).
Proof.
  apply (page_without_upload demo_OpenAi demo_SmartDataframe
           (demo_chat (VStr "42")) demo_pd demo_load_dotenv
           demo_read_csv demo_session_idle); reflexivity.
Defined.

Lemma parse_error_propagates_witness :
  app demo_OpenAi demo_SmartDataframe (demo_chat (VStr "42"))
      demo_pd demo_load_dotenv demo_read_csv_fails
      (demo_session_typed "total sales?" true) =
    (page_header
       ++ [st_columns [1; 1]%Z;
           in_column 1 (st_info "✅ CSV File Uploaded Successfully");
           in_column 1 (call_read_csv "city,sales")],
     Raise (Exc "ParserError" "Error tokenizing data")).
Proof.
  apply (parse_error_propagates demo_OpenAi demo_SmartDataframe
           (demo_chat (VStr "42")) demo_pd demo_load_dotenv
           demo_read_csv_fails (demo_session_typed "total sales?" true));
    reflexivity.
Defined.

Lemma no_query_before_button_witness :
  app demo_OpenAi demo_SmartDataframe (demo_chat (VStr "42"))
      demo_pd demo_load_dotenv demo_read_csv
      (demo_session_typed "total sales?" false) =
    (page_header ++ page_loaded "city,sales" demo_table
       ++ [in_column 2 (st_button "Chat With CSV")],
     Return tt)
  /\ flat_map openai_tokens
       (app demo_OpenAi demo_SmartDataframe (demo_chat (VStr "42"))
            demo_pd demo_load_dotenv demo_read_csv
            (demo_session_typed "total sales?" false)).1 = []
  /\ List.filter is_engine_query
       (app demo_OpenAi demo_SmartDataframe (demo_chat (VStr "42"))
            demo_pd demo_load_dotenv demo_read_csv
            (demo_session_typed "total sales?" false)).1 = [].
Proof.
  apply (no_query_before_button demo_OpenAi demo_SmartDataframe
           (demo_chat (VStr "42")) demo_pd demo_load_dotenv
           demo_read_csv (demo_session_typed "total sales?" false)
           "city,sales" demo_table "total sales?"); reflexivity.
Defined.

Lemma dispatcher_error_ends_page_witness :
  app demo_OpenAi demo_SmartDataframe
      (demo_chat_fails (Exc "Timeout" "no answer"))
      demo_pd demo_load_dotenv demo_read_csv
      (demo_session_typed "total sales?" true) =
    (page_before_query "city,sales" demo_table "total sales?"
       ++ (in_column 2 <$>
             engine_calls (Some "sk-demo") demo_table "total sales?"),
     Raise (Exc "Timeout" "no answer")).
Proof.
  apply (dispatcher_error_ends_page demo_OpenAi demo_SmartDataframe
           (demo_chat_fails (Exc "Timeout" "no answer"))
           demo_pd demo_load_dotenv demo_read_csv
           (demo_session_typed "total sales?" true)
           "city,sales" demo_table "total sales?"
           (engine_calls (Some "sk-demo") demo_table "total sales?")
           (Exc "Timeout" "no answer")); reflexivity.
Defined.

Lemma engine_gets_checked_key_witness :
  Some "sk-demo" =
    os_getenv
      (demo_load_dotenv
         (os_environ (demo_session_typed "total sales?" true)))
      "OPENAI_API_KEY"
  /\ truthy (Some "sk-demo") = true.
Proof.
  apply (engine_gets_checked_key demo_OpenAi demo_SmartDataframe
           (demo_chat (VStr "42")) demo_pd demo_load_dotenv
           demo_read_csv (demo_session_typed "total sales?" true)
           (Some "sk-demo")).
  vm_compute. repeat constructor.
Defined.

Lemma page_forwards_table_and_text_witness :
  exists rest,
    (app demo_OpenAi demo_SmartDataframe (demo_chat (VStr "which table?"))
         demo_pd demo_load_dotenv demo_read_csv
         (demo_session_typed EmptyString true)).1 =
      page_before_query "city,sales" demo_table EmptyString
        ++ [in_column 2
              (call_OpenAi
                 (os_getenv
                    (demo_load_dotenv
                       (os_environ (demo_session_typed EmptyString true)))
                    "OPENAI_API_KEY"));
            in_column 2 (call_SmartDataframe demo_table);
            in_column 2 (call_chat EmptyString)]
        ++ rest.
Proof.
  apply (page_forwards_table_and_text demo_OpenAi demo_SmartDataframe
           (demo_chat (VStr "which table?")) demo_pd
           demo_load_dotenv demo_read_csv
           (demo_session_typed EmptyString true)
           "city,sales" demo_table EmptyString (Some "sk-demo") demo_table);
    reflexivity.
Defined.

Lemma page_raises_only_library_errors_witness :
  (exists input_csv,
     file_uploader_value (demo_session_typed "total sales?" true)
       = Some input_csv
     /\ demo_read_csv_fails input_csv
        = Err (Exc "ParserError" "Error tokenizing data"))
  \/ (exists input_csv data input_text t,
        file_uploader_value (demo_session_typed "total sales?" true)
          = Some input_csv
        /\ demo_read_csv_fails input_csv = Ok data
        /\ text_area_value (demo_session_typed "total sales?" true)
           = Some input_text
        /\ button_value (demo_session_typed "total sales?" true) = true
        /\ chat_with_csv demo_OpenAi demo_SmartDataframe
             (demo_chat (VStr "42")) demo_pd
             (os_getenv
                (demo_load_dotenv
                   (os_environ (demo_session_typed "total sales?" true)))
                "OPENAI_API_KEY")
             data input_text
           = (t, Raise (Exc "ParserError" "Error tokenizing data"))).
Proof.
  apply (page_raises_only_library_errors demo_OpenAi demo_SmartDataframe
           (demo_chat (VStr "42")) demo_pd demo_load_dotenv
           demo_read_csv_fails (demo_session_typed "total sales?" true)
           (Exc "ParserError" "Error tokenizing data")); reflexivity.
Defined.
